(** * Avatar Processing Service templates: a shallow embedding

    The repository holds two code templates of the same service,
    [src/template.js] and [src/go/template.go].  Both declare the job
    record, its constructor, the service with its two configuration
    fields and four methods whose bodies are left to the candidate: the
    Go bodies return zero values, the JavaScript bodies are empty and so
    evaluate to [undefined].  Both files end with a [main] that submits
    a job and reads it back.

    The embedding follows the two files declaration by declaration.
    Everything outside the process (the clock, the moderation endpoint,
    the console) is a [World] that is threaded through an exception
    monad. *)

From Stdlib Require Import String Ascii List ZArith Bool Lia.
Import ListNotations.
Local Open Scope string_scope.

(** ** Flat JSON objects, as exchanged with the moderation endpoint *)

Module Json.

Inductive value : Type :=
| JNull
| JBool (b : bool)
| JString (s : string).

(** Members in document order; a later duplicate overrides. *)
Definition object : Type := list (string * value).

Definition lower (c : ascii) : ascii :=
  let n := nat_of_ascii c in
  if (65 <=? n)%nat && (n <=? 90)%nat then ascii_of_nat (n + 32) else c.

Fixpoint fold_case (s : string) : string :=
  match s with
  | EmptyString => EmptyString
  | String c s' => String (lower c) (fold_case s')
  end.

Definition equal_fold (a b : string) : bool :=
  String.eqb (fold_case a) (fold_case b).

(** The member a decoder binds to a field named [name]: the last
    member whose key equals [name] up to ASCII case. *)
Fixpoint member (name : string) (o : object) : option value :=
  match o with
  | [] => None
  | (k, v) :: o' =>
      match member name o' with
      | Some v' => Some v'
      | None => if equal_fold k name then Some v else None
      end
  end.

End Json.

(** ** The world outside the process *)

Definition Time : Type := Z.

(** Body of the POST to [/api/v1/moderate-content]. *)
Record ModerationRequest : Type := {
  content : string;
  user_id : string
}.

Inductive HttpOutcome : Type :=
| HttpResponse (status : Z) (body : option Json.object)
| TransportError (cause : string)
| Timeout.

Record World : Type := {
  clock : Time;
  moderation : ModerationRequest -> HttpOutcome;
  requests : list ModerationRequest;
  console : list string
}.

(** What a reply is worth to a caller that follows the documented
    response: a success status whose body carries a boolean [approved]
    and possibly a string [reason].  Anything else is a failed call. *)
Definition verdict (r : HttpOutcome) : option (bool * option string) :=
  match r with
  | HttpResponse status (Some o) =>
      if ((200 <=? status) && (status <? 300))%Z then
        match Json.member "approved" o with
        | Some (Json.JBool b) =>
            match Json.member "reason" o with
            | Some (Json.JString s) => Some (b, Some s)
            | Some Json.JNull | None => Some (b, None)
            | Some (Json.JBool _) => None
            end
        | _ => None
        end
      else None
  | _ => None
  end.

(** ** Computations over the world that may end abruptly *)

Section Exec.

Variable E : Type.

Definition exec (A : Type) : Type := World -> (A + E) * World.

Definition ret {A : Type} (a : A) : exec A :=
  fun w => (inl a, w).

Definition bind {A B : Type} (c : exec A) (k : A -> exec B) : exec B :=
  fun w =>
    match c w with
    | (inl a, w') => k a w'
    | (inr e, w') => (inr e, w')
    end.

Definition raise {A : Type} (e : E) : exec A :=
  fun w => (inr e, w).

Definition read_clock : exec Time :=
  fun w => (inl (clock w), w).

Definition write_line (s : string) : exec unit :=
  fun w =>
    (inl tt,
     {| clock := clock w;
        moderation := moderation w;
        requests := requests w;
        console := console w ++ [s] |}).

End Exec.

Arguments ret {E A} a.
Arguments bind {E A B} c k.
Arguments raise {E A} e.
Arguments read_clock {E}.
Arguments write_line {E} s.

Declare Scope exec_scope.
Delimit Scope exec_scope with exec.
Notation "x <- c ;; k" := (bind c (fun x => k))
  (at level 61, c at next level, right associativity) : exec_scope.
Notation "' p <- c ;; k" := (bind c (fun x => match x with p => k end))
  (at level 61, p pattern, c at next level, right associativity) : exec_scope.
Notation "c ;;; k" := (bind c (fun _ => k))
  (at level 61, right associativity) : exec_scope.
Local Open Scope exec_scope.

(** Substring test ([strings.Contains], [String.prototype.includes]). *)
Fixpoint contains (hay needle : string) : bool :=
  String.prefix needle hay ||
  match hay with
  | EmptyString => false
  | String _ hay' => contains hay' needle
  end.

(** ** [src/go/template.go] *)

Module Go.

(** A Go [error] value; [None] of [option error] is the nil error. *)
Inductive error : Type :=
| errorString (msg : string).

Inductive panic : Type :=
| NilDereference
| PanicError (e : error).

Definition M : Type -> Type := exec panic.

(** A pointer is [Some] of its target or nil. *)
Definition deref {A : Type} (p : option A) : M A :=
  match p with
  | Some a => ret a
  | None => raise NilDereference
  end.

(** The builtin [println]: operands separated by spaces, one line. *)
Definition println (operands : list string) : M unit :=
  write_line (String.concat " " operands).

Record ModerationResponse : Type := {
  IsApproved : bool;
  Reason : string
}.

(** The JSON names the struct tags give the two fields; the reply
    documented in the file header names its flag [approved]. *)
Definition IsApproved_tag : string := "is_approved".
Definition Reason_tag : string := "reason".

Record AvatarJob : Type := {
  ID : string;
  UserID : string;
  Status : string;
  InputData : string;
  OutputURL : option string;
  CreatedAt : Time;
  ErrorMessage : option string
}.

(** [NewAvatarJob]: the two pointer fields are not mentioned in the
    composite literal and stay nil. *)
Definition NewAvatarJob (id userID status inputData : string)
  : M (option AvatarJob) :=
  now <- read_clock ;;
  ret (Some {| ID := id;
               UserID := userID;
               Status := status;
               InputData := inputData;
               OutputURL := None;
               CreatedAt := now;
               ErrorMessage := None |}).

(** The struct has the two configuration fields and nothing else:
    storage and HTTP client are left as a TODO. *)
Record AvatarProcessingService : Type := {
  moderationAPIURL : string;
  apiToken : string
}.

Definition NewAvatarProcessingService (url token : string)
  : AvatarProcessingService :=
  {| moderationAPIURL := url; apiToken := token |}.

(** Methods have a pointer receiver; each returns the receiver as it
    leaves it next to its results. *)
Definition SubmitJob (s : AvatarProcessingService)
    (userID inputData : string)
  : M (AvatarProcessingService * (option AvatarJob * option error)) :=
  ret (s, (None, None)).

Definition GetJobStatus (s : AvatarProcessingService) (jobID : string)
  : M (AvatarProcessingService * (option AvatarJob * option error)) :=
  ret (s, (None, None)).

Definition CallModerationAPI (s : AvatarProcessingService)
    (content userID : string)
  : M (AvatarProcessingService
       * (option ModerationResponse * option error)) :=
  ret (s, (None, None)).

Definition generateMockAvatarURL (s : AvatarProcessingService)
    (prompt : string) : string :=
  EmptyString.

Definition main : M unit :=
  let service :=
    NewAvatarProcessingService "https://api.example.com"
                               "your-api-token-here" in
  ' (service, (job, err)) <-
      SubmitJob service "user123"
                "A friendly robot avatar with blue eyes" ;;
  match err with Some e => raise (PanicError e) | None => ret tt end ;;;
  j <- deref job ;;
  println ["Job submitted:"; ID j; "Status:"; Status j] ;;;
  ' (service, (retrievedJob, err)) <- GetJobStatus service (ID j) ;;
  match err with Some e => raise (PanicError e) | None => ret tt end ;;;
  match retrievedJob with
  | Some r => println ["Retrieved job status:"; Status r]
  | None => println ["Job not found"]
  end.

End Go.


(** ** [src/template.js] *)

Module Js.

Inductive error : Type :=
| TypeError (msg : string).

Definition M : Type -> Type := exec error.

(** The [ModerationResponse] typedef. *)
Record ModerationResponse : Type := {
  isApproved : bool;
  reason : option string
}.

(** An [AvatarJob] with its fields at their documented types; [None]
    stands for [null]. *)
Record AvatarJob : Type := {
  id : string;
  userId : string;
  status : string;
  inputData : string;
  outputUrl : option string;
  createdAt : Time;
  errorMessage : option string
}.

(** The values the service's methods are documented to return, next to
    [undefined] and [null]. *)
Inductive value : Type :=
| Undefined
| Null
| Str (s : string)
| Job (j : AvatarJob)
| Moderation (r : ModerationResponse).

Definition truthy (v : value) : bool :=
  match v with
  | Undefined | Null => false
  | Str EmptyString => false
  | Str (String _ _) => true
  | Job _ | Moderation _ => true
  end.

(** [`${v}`] *)
Definition template (v : value) : string :=
  match v with
  | Undefined => "undefined"
  | Null => "null"
  | Str s => s
  | Job _ | Moderation _ => "[object Object]"
  end.

(** [v.name] for a property [name] that only jobs carry. *)
Definition property (name : string) (proj : AvatarJob -> string)
    (v : value) : M value :=
  match v with
  | Undefined =>
      raise (TypeError ("Cannot read properties of undefined (reading '"
                        ++ name ++ "')"))
  | Null =>
      raise (TypeError ("Cannot read properties of null (reading '"
                        ++ name ++ "')"))
  | Job j => ret (Str (proj j))
  | Str _ | Moderation _ => ret Undefined
  end.

(** [new AvatarJob(...)]; an omitted optional argument is [None], whose
    default is [null], and [createdAt || new Date()] reads the clock
    only when no date was passed. *)
Definition new_AvatarJob (id userId status inputData : string)
    (outputUrl : option string) (createdAt : option Time)
    (errorMessage : option string) : M AvatarJob :=
  created <- match createdAt with
             | Some t => ret t
             | None => read_clock
             end ;;
  ret {| id := id;
         userId := userId;
         status := status;
         inputData := inputData;
         outputUrl := outputUrl;
         createdAt := created;
         errorMessage := errorMessage |}.

(** The constructor assigns the two configuration fields; storage and
    HTTP client are left as a TODO. *)
Record AvatarProcessingService : Type := {
  moderationApiUrl : string;
  apiToken : string
}.

Definition new_AvatarProcessingService (moderationApiUrl apiToken : string)
  : AvatarProcessingService :=
  {| moderationApiUrl := moderationApiUrl; apiToken := apiToken |}.

(** Each method returns [this] as it leaves it next to its result.  An
    [async] method is a computation whose value the caller awaits; a
    body without [return] yields [undefined]. *)
Definition submitJob (this : AvatarProcessingService)
    (userId inputData : string) : M (AvatarProcessingService * value) :=
  ret (this, Undefined).

Definition getJobStatus (this : AvatarProcessingService) (jobId : value)
  : M (AvatarProcessingService * value) :=
  ret (this, Undefined).

Definition callModerationApi (this : AvatarProcessingService)
    (content userId : string) : M (AvatarProcessingService * value) :=
  ret (this, Undefined).

Definition _generateMockAvatarUrl (this : AvatarProcessingService)
    (prompt : string) : value :=
  Undefined.

Definition console_log (line : string) : M unit := write_line line.

Definition main : M unit :=
  let service :=
    new_AvatarProcessingService "https://api.example.com"
                                "your-api-token-here" in
  ' (service, job) <-
      submitJob service "user123"
                "A friendly robot avatar with blue eyes" ;;
  job_id <- property "id" id job ;;
  job_status <- property "status" status job ;;
  console_log ("Job submitted: " ++ template job_id
               ++ ", Status: " ++ template job_status) ;;;
  ' (service, retrievedJob) <- getJobStatus service job_id ;;
  shown <- (if truthy retrievedJob
            then property "status" status retrievedJob
            else ret (Str "Not found")) ;;
  console_log ("Retrieved job status: " ++ template shown).

End Js.


(** ** Vocabulary of the properties *)

(** The statuses the two templates document for a job. *)
Definition status_enum : list string :=
  ["pending"; "completed"; "failed"; "rejected"].

Definition has_output (status : string) : bool :=
  String.eqb status "completed" || String.eqb status "rejected".

Definition has_error (status : string) : bool :=
  String.eqb status "failed".

Definition present {A : Type} (o : option A) : bool :=
  match o with Some _ => true | None => false end.

(** Output reference present exactly on completed and rejected jobs,
    error message present exactly on failed ones. *)
Definition field_presence (status : string)
    (outputRef errorMessage : option string) : bool :=
  Bool.eqb (present outputRef) (has_output status)
  && Bool.eqb (present errorMessage) (has_error status).

Definition Go_field_presence (j : Go.AvatarJob) : bool :=
  field_presence (Go.Status j) (Go.OutputURL j) (Go.ErrorMessage j).

Definition Js_field_presence (j : Js.AvatarJob) : bool :=
  field_presence (Js.status j) (Js.outputUrl j) (Js.errorMessage j).



(** A run of submissions on one service, results in call order. *)
Fixpoint Go_submit_all (s : Go.AvatarProcessingService)
    (calls : list (string * string))
  : Go.M (Go.AvatarProcessingService
          * list (option Go.AvatarJob * option Go.error)) :=
  match calls with
  | [] => ret (s, [])
  | (userID, inputData) :: rest =>
      ' (s1, r) <- Go.SubmitJob s userID inputData ;;
      ' (s2, rs) <- Go_submit_all s1 rest ;;
      ret (s2, r :: rs)
  end.

Fixpoint Js_submit_all (s : Js.AvatarProcessingService)
    (calls : list (string * string))
  : Js.M (Js.AvatarProcessingService * list Js.value) :=
  match calls with
  | [] => ret (s, [])
  | (userId, inputData) :: rest =>
      ' (s1, r) <- Js.submitJob s userId inputData ;;
      ' (s2, rs) <- Js_submit_all s1 rest ;;
      ret (s2, r :: rs)
  end.

(** The identifiers of the jobs among a run's results. *)
Definition Go_ids (rs : list (option Go.AvatarJob * option Go.error))
  : list string :=
  flat_map (fun r => match fst r with
                     | Some j => [Go.ID j]
                     | None => []
                     end) rs.

Definition Js_ids (rs : list Js.value) : list string :=
  flat_map (fun v => match v with
                     | Js.Job j => [Js.id j]
                     | _ => []
                     end) rs.

(** Sample surroundings: a fixed clock and an endpoint with one reply. *)
Definition world_replying (reply : HttpOutcome) : World :=
  {| clock := 1700000000%Z;
     moderation := fun _ => reply;
     requests := [];
     console := [] |}.

Definition approved_reply : HttpOutcome :=
  HttpResponse 200
    (Some [("approved", Json.JBool true);
           ("reason", Json.JString "Content appears safe")]).

Definition go_service : Go.AvatarProcessingService :=
  Go.NewAvatarProcessingService "https://api.example.com"
                                "your-api-token-here".

Definition js_service : Js.AvatarProcessingService :=
  Js.new_AvatarProcessingService "https://api.example.com"
                                 "your-api-token-here".

Definition robot_prompt : string := "A friendly robot avatar with blue eyes".


(** ** Sequences of method calls on one service *)

Inductive Go_call : Type :=
| GoSubmitJob (userID inputData : string)
| GoGetJobStatus (jobID : string)
| GoCallModerationAPI (content userID : string)
| GoGenerateMockAvatarURL (prompt : string).

(** One call; the receiver as the method leaves it. *)
Definition Go_step (s : Go.AvatarProcessingService) (c : Go_call)
  : Go.M Go.AvatarProcessingService :=
  match c with
  | GoSubmitJob userID inputData =>
      r <- Go.SubmitJob s userID inputData ;; ret (fst r)
  | GoGetJobStatus jobID =>
      r <- Go.GetJobStatus s jobID ;; ret (fst r)
  | GoCallModerationAPI text userID =>
      r <- Go.CallModerationAPI s text userID ;; ret (fst r)
  | GoGenerateMockAvatarURL prompt =>
      let _ := Go.generateMockAvatarURL s prompt in ret s
  end.

Fixpoint Go_run (s : Go.AvatarProcessingService) (cs : list Go_call)
  : Go.M Go.AvatarProcessingService :=
  match cs with
  | [] => ret s
  | c :: rest => s' <- Go_step s c ;; Go_run s' rest
  end.

Inductive Js_call : Type :=
| JsSubmitJob (userId inputData : string)
| JsGetJobStatus (jobId : Js.value)
| JsCallModerationApi (content userId : string)
| JsGenerateMockAvatarUrl (prompt : string).

Definition Js_step (this : Js.AvatarProcessingService) (c : Js_call)
  : Js.M Js.AvatarProcessingService :=
  match c with
  | JsSubmitJob userId inputData =>
      r <- Js.submitJob this userId inputData ;; ret (fst r)
  | JsGetJobStatus jobId =>
      r <- Js.getJobStatus this jobId ;; ret (fst r)
  | JsCallModerationApi text userId =>
      r <- Js.callModerationApi this text userId ;; ret (fst r)
  | JsGenerateMockAvatarUrl prompt =>
      let _ := Js._generateMockAvatarUrl this prompt in ret this
  end.

Fixpoint Js_run (this : Js.AvatarProcessingService) (cs : list Js_call)
  : Js.M Js.AvatarProcessingService :=
  match cs with
  | [] => ret this
  | c :: rest => this' <- Js_step this c ;; Js_run this' rest
  end.


(** * Properties *)

(** ** What the method bodies compute *)

Section Bodies.

Variables (w : World).
Variables (gs : Go.AvatarProcessingService) (js : Js.AvatarProcessingService).

Lemma Go_SubmitJob_body (userID inputData : string) :
  Go.SubmitJob gs userID inputData w = (inl (gs, (None, None)), w).
Proof. reflexivity. Qed.

Lemma Js_submitJob_body (userId inputData : string) :
  Js.submitJob js userId inputData w = (inl (js, Js.Undefined), w).
Proof. reflexivity. Qed.

Lemma Go_GetJobStatus_body (jobID : string) :
  Go.GetJobStatus gs jobID w = (inl (gs, (None, None)), w).
Proof. reflexivity. Qed.

Lemma Js_getJobStatus_body (jobId : Js.value) :
  Js.getJobStatus js jobId w = (inl (js, Js.Undefined), w).
Proof. reflexivity. Qed.

End Bodies.

Lemma Go_submit_all_body (calls : list (string * string)) :
  forall (gs : Go.AvatarProcessingService) (w : World),
    Go_submit_all gs calls w
    = (inl (gs, repeat (None, None) (length calls)), w).
Proof.
  induction calls as [| [userID inputData] rest IH]; intros gs w.
  - reflexivity.
  - cbn [Go_submit_all length repeat].
    unfold bind at 1. rewrite Go_SubmitJob_body.
    unfold bind at 1. rewrite IH. reflexivity.
Qed.

Lemma Js_submit_all_body (calls : list (string * string)) :
  forall (js : Js.AvatarProcessingService) (w : World),
    Js_submit_all js calls w
    = (inl (js, repeat Js.Undefined (length calls)), w).
Proof.
  induction calls as [| [userId inputData] rest IH]; intros js w.
  - reflexivity.
  - cbn [Js_submit_all length repeat].
    unfold bind at 1. rewrite Js_submitJob_body.
    unfold bind at 1. rewrite IH. reflexivity.
Qed.

Lemma Go_ids_nil (n : nat) : Go_ids (repeat (None, None) n) = [].
Proof. induction n as [| n IH]; [reflexivity | exact IH]. Qed.

Lemma Js_ids_undefined (n : nat) : Js_ids (repeat Js.Undefined n) = [].
Proof. induction n as [| n IH]; [reflexivity | exact IH]. Qed.

(** ** Submission *)

(** C1.  On a valid submission whose moderation reply is a verdict
    (approved or not), [SubmitJob] returns a nil job with a nil error
    and [submitJob] resolves to [undefined]: neither returns a Job, so
    no status reflects the verdict. *)
Theorem submit_ignores_verdict
    (w : World) (gs : Go.AvatarProcessingService)
    (js : Js.AvatarProcessingService)
    (userId inputData : string) (approved : bool) (why : option string) :
  userId <> EmptyString ->
  inputData <> EmptyString ->
  verdict (moderation w {| content := inputData; user_id := userId |})
  = Some (approved, why) ->
  Go.SubmitJob gs userId inputData w = (inl (gs, (None, None)), w)
  /\ Js.submitJob js userId inputData w = (inl (js, Js.Undefined), w).
Proof.
  intros _ _ _. split.
  - apply Go_SubmitJob_body.
  - apply Js_submitJob_body.
Qed.

Lemma submit_ignores_verdict_witness :
  Go.SubmitJob go_service "user123" robot_prompt
               (world_replying approved_reply)
  = (inl (go_service, (None, None)), world_replying approved_reply)
  /\ Js.submitJob js_service "user123" robot_prompt
                  (world_replying approved_reply)
     = (inl (js_service, Js.Undefined), world_replying approved_reply).
Proof.
  apply (submit_ignores_verdict (world_replying approved_reply)
           go_service js_service "user123" robot_prompt
           true (Some "Content appears safe")).
  - discriminate.
  - discriminate.
  - reflexivity.
Defined.

(** C2.  On a valid submission whose moderation call fails (no verdict
    can be read from the outcome), both templates return normally, but
    with a nil job and [undefined]: no Job with status failed and an
    error message is returned. *)
Theorem submit_ignores_moderation_failure
    (w : World) (gs : Go.AvatarProcessingService)
    (js : Js.AvatarProcessingService) (userId inputData : string) :
  userId <> EmptyString ->
  inputData <> EmptyString ->
  verdict (moderation w {| content := inputData; user_id := userId |})
  = None ->
  Go.SubmitJob gs userId inputData w = (inl (gs, (None, None)), w)
  /\ Js.submitJob js userId inputData w = (inl (js, Js.Undefined), w).
Proof.
  intros _ _ _. split.
  - apply Go_SubmitJob_body.
  - apply Js_submitJob_body.
Qed.

Lemma submit_ignores_moderation_failure_witness :
  Go.SubmitJob go_service "user123" robot_prompt (world_replying Timeout)
  = (inl (go_service, (None, None)), world_replying Timeout)
  /\ Js.submitJob js_service "user123" robot_prompt (world_replying Timeout)
     = (inl (js_service, Js.Undefined), world_replying Timeout).
Proof.
  apply (submit_ignores_moderation_failure (world_replying Timeout)
           go_service js_service "user123" robot_prompt).
  - discriminate.
  - discriminate.
  - reflexivity.
Defined.




(** ** Reading a job back *)

(** C4.  The round trip of the two [main] functions, submit and then
    read back by the returned job's id, does not reach the read: the
    submitted job is nil in Go, whose [job.ID] panics, and [undefined]
    in JavaScript, whose [job.id] throws a [TypeError].  Whatever id is
    asked for after a submission, the read returns no Job either. *)
Theorem main_cannot_read_back (w : World) :
  Go.main w = (inr Go.NilDereference, w)
  /\ Js.main w
     = (inr (Js.TypeError
               "Cannot read properties of undefined (reading 'id')"), w)
  /\ (forall gs userID inputData jobID,
        bind (Go.SubmitJob gs userID inputData)
             (fun r => Go.GetJobStatus (fst r) jobID) w
        = (inl (gs, (None, None)), w))
  /\ (forall js userId inputData jobId,
        bind (Js.submitJob js userId inputData)
             (fun r => Js.getJobStatus (fst r) jobId) w
        = (inl (js, Js.Undefined), w)).
Proof.
  repeat split.
Qed.

(** C5.  For every job id, [GetJobStatus] returns a nil job (and a nil
    error) and [getJobStatus] returns [undefined], which is falsy: the
    value both [main] functions report as not found, and never a Job.
    Service and world are left as they were. *)
Theorem getStatus_not_found_and_pure
    (w : World) (gs : Go.AvatarProcessingService)
    (js : Js.AvatarProcessingService) (jobId : string) :
  Go.GetJobStatus gs jobId w = (inl (gs, (None, None)), w)
  /\ Js.getJobStatus js (Js.Str jobId) w = (inl (js, Js.Undefined), w)
  /\ Js.truthy Js.Undefined = false.
Proof.
  split; [apply Go_GetJobStatus_body |].
  split; [apply Js_getJobStatus_body | reflexivity].
Qed.

(** ** Identifiers *)

(** C6.  Every call of a run of submissions returns a nil job (Go) or
    [undefined] (JavaScript), so the run returns no job id at all,
    whatever its length. *)
Theorem submissions_return_no_ids
    (w : World) (gs : Go.AvatarProcessingService)
    (js : Js.AvatarProcessingService) (calls : list (string * string)) :
  (exists rs,
      Go_submit_all gs calls w = (inl (gs, rs), w)
      /\ length rs = length calls
      /\ Forall (fun r => r = (None, None)) rs
      /\ Go_ids rs = [])
  /\ (exists vs,
         Js_submit_all js calls w = (inl (js, vs), w)
         /\ length vs = length calls
         /\ Forall (fun v => v = Js.Undefined) vs
         /\ Js_ids vs = []).
Proof.
  split.
  - exists (repeat (None, None) (length calls)).
    split; [apply Go_submit_all_body |].
    split; [apply repeat_length |].
    split; [| apply Go_ids_nil].
    apply Forall_forall. intros r Hr. exact (repeat_spec _ _ _ Hr).
  - exists (repeat Js.Undefined (length calls)).
    split; [apply Js_submit_all_body |].
    split; [apply repeat_length |].
    split; [| apply Js_ids_undefined].
    apply Forall_forall. intros v Hv. exact (repeat_spec _ _ _ Hv).
Qed.

(** ** The job record *)

(** X8.  A job built by the constructor without optional arguments has
    neither output reference nor error message, so output reference
    present exactly on completed and rejected jobs, error message
    present exactly on failed ones, holds of it exactly when its status
    is none of completed, rejected and failed; of a JavaScript job
    built with optional arguments it holds exactly when it holds of
    the arguments passed. *)
Theorem constructed_job_field_presence
    (w : World) (id userId status inputData : string) :
  (exists j,
      Go.NewAvatarJob id userId status inputData w = (inl (Some j), w)
      /\ Go.OutputURL j = None
      /\ Go.ErrorMessage j = None
      /\ Go_field_presence j = negb (has_output status || has_error status))
  /\ (exists j,
         Js.new_AvatarJob id userId status inputData None None None w
         = (inl j, w)
         /\ Js.outputUrl j = None
         /\ Js.errorMessage j = None
         /\ Js_field_presence j
            = negb (has_output status || has_error status))
  /\ (forall outputUrl createdAt errorMessage,
         exists j,
           Js.new_AvatarJob id userId status inputData
                            outputUrl createdAt errorMessage w
           = (inl j, w)
           /\ Js_field_presence j
              = field_presence status outputUrl errorMessage).
Proof.
  assert (Hnone : field_presence status None None
                  = negb (has_output status || has_error status)).
  { unfold field_presence. cbn [present].
    destruct (has_output status), (has_error status); reflexivity. }
  split; [| split].
  - eexists. split; [reflexivity |]. cbn. repeat split. exact Hnone.
  - eexists. split; [reflexivity |]. cbn. repeat split. exact Hnone.
  - intros outputUrl [t |] errorMessage; eexists; split; reflexivity.
Qed.

(** C10.  The constructors take any status string as it is, whether or
    not it is one of the four documented ones.  Go reads the clock for
    the creation time and leaves output URL and error message nil.
    JavaScript, whatever optional arguments are passed, reads the clock
    for the creation time exactly when no date is passed, and sets
    output URL and error message to what is passed, [null] when
    nothing is.  So a job whose status is outside the enumeration can
    be built. *)
Theorem constructor_accepts_any_status
    (w : World) (id userId status inputData : string) :
  Go.NewAvatarJob id userId status inputData w
  = (inl (Some {| Go.ID := id;
                  Go.UserID := userId;
                  Go.Status := status;
                  Go.InputData := inputData;
                  Go.OutputURL := None;
                  Go.CreatedAt := clock w;
                  Go.ErrorMessage := None |}), w)
  /\ Js.new_AvatarJob id userId status inputData None None None w
     = (inl {| Js.id := id;
               Js.userId := userId;
               Js.status := status;
               Js.inputData := inputData;
               Js.outputUrl := None;
               Js.createdAt := clock w;
               Js.errorMessage := None |}, w)
  /\ (forall outputUrl createdAt errorMessage,
         Js.new_AvatarJob id userId status inputData
                          outputUrl createdAt errorMessage w
         = (inl {| Js.id := id;
                   Js.userId := userId;
                   Js.status := status;
                   Js.inputData := inputData;
                   Js.outputUrl := outputUrl;
                   Js.createdAt := match createdAt with
                                   | Some created => created
                                   | None => clock w
                                   end;
                   Js.errorMessage := errorMessage |}, w))
  /\ (exists odd gj jj,
         existsb (String.eqb odd) status_enum = false
         /\ Go.NewAvatarJob id userId odd inputData w = (inl (Some gj), w)
         /\ Go.Status gj = odd
         /\ Js.new_AvatarJob id userId odd inputData None None None w
            = (inl jj, w)
         /\ Js.status jj = odd).
Proof.
  split; [reflexivity |].
  split; [reflexivity |].
  split.
  - intros outputUrl [created |] errorMessage; reflexivity.
  - exists "archived". do 2 eexists. repeat split.
Qed.

(** ** Moderation call *)

(** C8.  When the endpoint's reply is a well-formed verdict, the
    moderation call of both templates returns without reading it: a nil
    response with a nil error in Go, [undefined] in JavaScript, and no
    request recorded in the world. *)
Theorem moderation_call_parses_nothing
    (w : World) (gs : Go.AvatarProcessingService)
    (js : Js.AvatarProcessingService)
    (text userId : string) (approved : bool) (why : option string) :
  verdict (moderation w {| content := text; user_id := userId |})
  = Some (approved, why) ->
  Go.CallModerationAPI gs text userId w = (inl (gs, (None, None)), w)
  /\ Js.callModerationApi js text userId w = (inl (js, Js.Undefined), w).
Proof.
  intros _. split; reflexivity.
Qed.

Lemma moderation_call_parses_nothing_witness :
  Go.CallModerationAPI go_service robot_prompt "user123"
                       (world_replying approved_reply)
  = (inl (go_service, (None, None)), world_replying approved_reply)
  /\ Js.callModerationApi js_service robot_prompt "user123"
                          (world_replying approved_reply)
     = (inl (js_service, Js.Undefined), world_replying approved_reply).
Proof.
  apply (moderation_call_parses_nothing (world_replying approved_reply)
           go_service js_service robot_prompt "user123"
           true (Some "Content appears safe")).
  reflexivity.
Defined.

(** ** Mock avatar URL *)

(** C9.  The mock URL does not depend on its argument or on anything
    else, but it is the empty string in Go and [undefined] in
    JavaScript: it contains no non-empty job id. *)
Theorem mock_url_is_constant_and_empty
    (gs : Go.AvatarProcessingService) (js : Js.AvatarProcessingService)
    (prompt prompt' : string) (c : ascii) (jobId : string) :
  Go.generateMockAvatarURL gs prompt = Go.generateMockAvatarURL gs prompt'
  /\ Js._generateMockAvatarUrl js prompt = Js._generateMockAvatarUrl js prompt'
  /\ Go.generateMockAvatarURL gs prompt = EmptyString
  /\ contains (Go.generateMockAvatarURL gs prompt) (String c jobId) = false
  /\ Js._generateMockAvatarUrl js prompt = Js.Undefined.
Proof.
  repeat split.
Qed.

(** * Further properties of the two templates *)

(** ** The service across calls *)

Lemma Go_step_keeps (s : Go.AvatarProcessingService) (c : Go_call)
    (w : World) :
  Go_step s c w = (inl s, w).
Proof. destruct c; reflexivity. Qed.

Lemma Js_step_keeps (this : Js.AvatarProcessingService) (c : Js_call)
    (w : World) :
  Js_step this c w = (inl this, w).
Proof. destruct c; reflexivity. Qed.

(** X1.  Whatever methods are called on a Go service, in whatever order
    and with whatever arguments, the run ends normally and the service
    still holds the endpoint URL and the token it was constructed with;
    the world (clock, requests sent, console) is as before. *)
Theorem Go_configuration_survives_calls
    (url token : string) (cs : list Go_call) (w : World) :
  exists s,
    Go_run (Go.NewAvatarProcessingService url token) cs w = (inl s, w)
    /\ Go.moderationAPIURL s = url
    /\ Go.apiToken s = token.
Proof.
  exists (Go.NewAvatarProcessingService url token).
  split; [| split; reflexivity].
  generalize (Go.NewAvatarProcessingService url token) as s.
  induction cs as [| c rest IH]; intro s.
  - reflexivity.
  - cbn [Go_run]. unfold bind. rewrite Go_step_keeps. apply IH.
Qed.

(** X2.  The same for the JavaScript service: any run of method calls
    ends without an exception and leaves [moderationApiUrl], [apiToken]
    and the world as they were. *)
Theorem Js_configuration_survives_calls
    (url token : string) (cs : list Js_call) (w : World) :
  exists this,
    Js_run (Js.new_AvatarProcessingService url token) cs w = (inl this, w)
    /\ Js.moderationApiUrl this = url
    /\ Js.apiToken this = token.
Proof.
  exists (Js.new_AvatarProcessingService url token).
  split; [| split; reflexivity].
  generalize (Js.new_AvatarProcessingService url token) as this.
  induction cs as [| c rest IH]; intro this.
  - reflexivity.
  - cbn [Js_run]. unfold bind. rewrite Js_step_keeps. apply IH.
Qed.

(** ** Rebuilding a job from its fields *)

(** X6.  The JavaScript constructor called with all seven fields of a
    job returns an equal job, without reading the clock and without an
    exception. *)
Theorem Js_constructor_copies (j : Js.AvatarJob) (w : World) :
  Js.new_AvatarJob (Js.id j) (Js.userId j) (Js.status j) (Js.inputData j)
                   (Js.outputUrl j) (Some (Js.createdAt j))
                   (Js.errorMessage j) w
  = (inl j, w).
Proof.
  destruct j; reflexivity.
Qed.

(** X7.  [NewAvatarJob] called with the four string fields of a job
    returns an equal job exactly when that job has no output URL, no
    error message and was created at the current clock reading: it
    cannot rebuild a job that carries a result. *)
Theorem Go_constructor_rebuilds_iff (j : Go.AvatarJob) (w : World) :
  Go.NewAvatarJob (Go.ID j) (Go.UserID j) (Go.Status j) (Go.InputData j) w
  = (inl (Some j), w)
  <-> (Go.OutputURL j = None
       /\ Go.ErrorMessage j = None
       /\ Go.CreatedAt j = clock w).
Proof.
  destruct j as [i u st d out t err]. cbn. split.
  - intro H. injection H as Hout Ht Herr. auto.
  - intros (-> & -> & ->). reflexivity.
Qed.
